(** * Fiche de paie : de l'analyse du moteur a la fiche de paie

    Shallow embedding of the payslip selectors ([analysisToFicheDePaie] and
    the functions it is built from) and the properties established about
    them.

    Conventions of the embedding.
    - JavaScript numbers are modelled by [Z]; the code only uses [0], [+],
      [-] and comparison with [0] on them.
    - An object property that may be missing is an [option]; [None] is
      JavaScript's [undefined].  All strings of the enumerations
      ['salarié' | 'employeur'] and [Branche] are non-empty, hence truthy,
      so [filter(Boolean)] keeps exactly the defined values.
    - [throw] is the [Throw] constructor of [Result]; reading a property of
      [undefined] throws [TypeError].
    - [findRuleByDottedName] and [encodeRuleName] are imported from
      [Engine/rules]; the selectors are parametric in them. *)

From Stdlib Require Import ZArith List String Lia Permutation.
From stdpp Require Import base option list gmap strings fin_maps.

Local Open Scope string_scope.
Local Open Scope list_scope.
Local Open Scope Z_scope.

(** ** Errors and the error monad *)

Inductive Erreur : Type :=
| MissingRuleCatalog                               (* [LocalizedRègleSelector] Les localizedFlatRules ne doivent pas être ... *)
| RuleNotFound (dottedName : string)               (* [LocalizedRègleSelector] Impossible de trouver la règle ... dans les flatRules *)
| MissingAnalysis                                  (* [] L'analyse fournie ne doit pas être ... *)
| RuleNotFoundInAnalysis (dottedName : string)     (* [règleAvecMontantSelector] Impossible de trouver la règle ... dans l'analyse *)
| TypeError.                                       (* property read on undefined or null *)

Inductive Result (A : Type) : Type :=
| Ok (a : A)
| Throw (e : Erreur).
Arguments Ok {A} a.
Arguments Throw {A} e.

Definition bind {A B} (r : Result A) (k : A -> Result B) : Result B :=
  match r with
  | Ok a => k a
  | Throw e => Throw e
  end.

Notation "'let*' x ':=' r 'in' k" := (bind r (fun x => k))
  (at level 10, x name, r at level 100, k at level 200).

(** [Array.prototype.map] with a callback that may throw: elements are
    visited from left to right and the first exception aborts the loop. *)
Fixpoint mapR {A B} (f : A -> Result B) (l : list A) : Result (list B) :=
  match l with
  | [] => Ok []
  | x :: l' =>
      let* y := f x in
      let* ys := mapR f l' in
      Ok (y :: ys)
  end.

(** ** Data model *)

Inductive Branche : Type :=
| santé
| accidents_du_travail
| retraite
| famille
| assurance_chômage
| logement
| autres.

Inductive DuPar : Type := salarié | employeur.

Record MontantPartagé : Type := {
  partSalariale : option Z;
  partPatronale : option Z
}.

Record Règle : Type := {
  nom : string;
  lien : string
}.

(** [Règle & { montant: number }] *)
Record RègleAvecMontant : Type := {
  rm_règle : Règle;
  rm_montant : Z
}.

(** [Règle & { branche, montant }] *)
Record Cotisation : Type := {
  règle : Règle;
  branche : Branche;
  montant : MontantPartagé
}.

(** A bucket is [None] when [cotisationsMap[branche]] is [undefined]. *)
Definition Cotisations : Type := list (Branche * option (list Cotisation)).

Definition COTISATION_BRANCHE_ORDER : list Branche :=
  [ santé; accidents_du_travail; retraite; famille; assurance_chômage;
    logement; autres ].

Record FicheDePaie : Type := {
  salaireBrut : RègleAvecMontant;
  avantagesEnNature : RègleAvecMontant;
  salaireDeBase : RègleAvecMontant;
  réductionsDeCotisations : RègleAvecMontant;
  cotisations : Cotisations;
  totalCotisations : MontantPartagé;
  salaireChargé : RègleAvecMontant;
  salaireNet : RègleAvecMontant;
  salaireNetImposable : RègleAvecMontant;
  salaireNetàPayer : RègleAvecMontant
}.

(** The object [{ 'dû par'?: ..., branche?: ... }]. *)
Record Attributs : Type := {
  dû_par : option DuPar;
  attr_branche : option Branche
}.

Record Explanation : Type := {
  expl_cotisation : option Attributs;
  expl_taxe : option Attributs
}.

(** [VariableWithCotisation].  [path] tolerates any missing intermediate
    object, so [cotisation], [taxe] and [explanation] are optional here;
    [category], [name] and [title] are never read. *)
Record VariableWithCotisation : Type := {
  dottedName : string;
  nodeValue : Z;
  cotisation : option Attributs;
  taxe : option Attributs;
  explanation : option Explanation
}.

(** A node of [analysis.cache] or [analysis.targets].  [node_variables] is
    what sits at the path [explanation.formule.explanation.explanation]. *)
Record EvaluatedNode : Type := {
  node_dottedName : string;
  node_nodeValue : option Z;
  node_variables : option (list VariableWithCotisation)
}.

Record Analysis : Type := {
  cache : gmap string EvaluatedNode;
  targets : list EvaluatedNode
}.

(** A rule of the catalog, as far as [règleLocaliséeSelector] reads it. *)
Record LocalizedRule : Type := {
  titre : option string;
  rule_nom : string
}.

#[global] Instance Branche_eq_dec : EqDecision Branche.
Proof. solve_decision. Defined.

Definition Branche_to_nat (b : Branche) : nat :=
  match b with
  | santé => 0 | accidents_du_travail => 1 | retraite => 2 | famille => 3
  | assurance_chômage => 4 | logement => 5 | autres => 6
  end%nat.

Definition Branche_of_nat (n : nat) : Branche :=
  match n with
  | 0 => santé | 1 => accidents_du_travail | 2 => retraite | 3 => famille
  | 4 => assurance_chômage | 5 => logement | _ => autres
  end%nat.

#[global] Instance Branche_countable : Countable Branche.
Proof.
  apply (inj_countable' Branche_to_nat Branche_of_nat).
  intros []; reflexivity.
Defined.

(** ** Selectors on a raw variable *)

(** [path([k1, k2], obj)]: [undefined] as soon as a step is missing. *)
Definition path {A B} (o : option A) (k : A -> option B) : option B :=
  match o with Some a => k a | None => None end.

(** [xs[0]] on an array of possibly missing values. *)
Definition first {A} (xs : list (option A)) : option A :=
  match xs with
  | x :: _ => x
  | [] => None
  end.

(** [Boolean] on a possibly missing enumeration value. *)
Definition Boolean {A} (o : option A) : bool :=
  match o with Some _ => true | None => false end.

Definition BLANK_COTISATION : Cotisation := {|
  règle := {| nom := "ERROR_SHOULD_BE_INSTANCIATED";
              lien := "ERROR_SHOULD_BE_INSTANCIATED" |};
  branche := autres;
  montant := {| partSalariale := Some 0; partPatronale := Some 0 |}
|}.

Definition duParSelector (variable : VariableWithCotisation) : option DuPar :=
  let dusPar :=
    map (fun p : VariableWithCotisation -> option DuPar => p variable)
      [ (fun v => path (cotisation v) dû_par);
        (fun v => path (taxe v) dû_par);
        (fun v => path (path (explanation v) expl_cotisation) dû_par);
        (fun v => path (path (explanation v) expl_taxe) dû_par) ] in
  first (List.filter Boolean dusPar).

Definition brancheSelector (variable : VariableWithCotisation) : Branche :=
  let branches :=
    map (fun p : VariableWithCotisation -> option Branche => p variable)
      [ (fun v => path (cotisation v) attr_branche);
        (fun v => path (taxe v) attr_branche);
        (fun v => path (path (explanation v) expl_cotisation) attr_branche);
        (fun v => path (path (explanation v) expl_taxe) attr_branche) ] in
  default autres (first (List.filter Boolean branches)).

(** ** Merging *)

(** [mergeWith(add)] on one key: added when both sides have it, otherwise
    the side that has it. *)
Definition mergeWith_add (a b : option Z) : option Z :=
  match a, b with
  | Some x, Some y => Some (x + y)
  | Some x, None => Some x
  | None, o => o
  end.

Definition mergeMontant (a b : MontantPartagé) : MontantPartagé := {|
  partSalariale := mergeWith_add (partSalariale a) (partSalariale b);
  partPatronale := mergeWith_add (partPatronale a) (partPatronale b)
|}.

(** [mergeWithKey((key, a, b) => key === 'montant' ? mergeWith(add, a, b) : b)]
    on two objects that both have every key. *)
Definition mergeCotisations (a b : Cotisation) : Cotisation := {|
  règle := règle b;
  branche := branche b;
  montant := mergeMontant (montant a) (montant b)
|}.

Definition variableToCotisation (règleLocaliséeSelector : string -> Result Règle)
    (variable : VariableWithCotisation) : Result Cotisation :=
  let* r := règleLocaliséeSelector (dottedName variable) in
  Ok (mergeCotisations BLANK_COTISATION {|
        règle := r;
        branche := brancheSelector variable;
        montant :=
          match duParSelector variable with
          | Some salarié => {| partSalariale := Some (nodeValue variable); partPatronale := None |}
          | _ => {| partSalariale := None; partPatronale := Some (nodeValue variable) |}
          end
      |}).

(** ** Grouping by branch *)

Definition groupByBranche (cotisations : list Cotisation) : Cotisations :=
  let cotisationsMap :=
    fold_left
      (fun (acc : gmap Branche (list Cotisation)) cotisation =>
         <[ branche cotisation :=
              cotisation :: default [] (acc !! branche cotisation) ]> acc)
      cotisations ∅ in
  map (fun branche => (branche, cotisationsMap !! branche)) COTISATION_BRANCHE_ORDER.

(** ** Ramda's groupBy and values

    [groupBy] builds an object whose keys are created in order of first
    occurrence, each holding the elements with that key in list order;
    [values] enumerates the object's properties.  Dotted names are not
    array indices, so property order is creation order. *)
Fixpoint groupBy_add {A} (k : string) (x : A) (groups : list (string * list A))
    : list (string * list A) :=
  match groups with
  | [] => [(k, [x])]
  | (k', xs) :: rest =>
      if String.eqb k k' then (k', xs ++ [x]) :: rest
      else (k', xs) :: groupBy_add k x rest
  end.

Definition groupBy {A} (f : A -> string) (l : list A) : list (string * list A) :=
  fold_left (fun acc x => groupBy_add (f x) x acc) l [].

Definition values {A} (groups : list (string * list A)) : list (list A) :=
  map snd groups.

Definition NOM_COTISATIONS_SALARIALES : string :=
  "contrat salarié . cotisations salariales".
Definition NOM_COTISATIONS_PATRONALES : string :=
  "contrat salarié . cotisations patronales".
Definition NOM_RÉDUCTIONS : string :=
  "contrat salarié . réductions de cotisations".

(** [pathOr([], ['explanation', 'formule', 'explanation', 'explanation'])] *)
Definition pathOr_variables (node : option EvaluatedNode) : list VariableWithCotisation :=
  default [] (path node node_variables).

(** The raw variables read by [analysisToCotisations]. *)
Definition variables (analysis : Analysis) : list VariableWithCotisation :=
  fold_left (@app _)
    (map pathOr_variables
       (map (fun name => cache analysis !! name)
          [ NOM_COTISATIONS_SALARIALES; NOM_COTISATIONS_PATRONALES ]))
    [].

(** [x !== 0] on a possibly missing number. *)
Definition not_zero (o : option Z) : bool :=
  match o with
  | Some z => negb (z =? 0)
  | None => true
  end.

(** The first three stages of the pipe of [analysisToCotisations]:
    [groupBy(prop('dottedName'))], [values], and the [map] that normalizes
    and folds each group. *)
Definition mergedCotisations (règleLocaliséeSelector : string -> Result Règle)
    (variables : list VariableWithCotisation) : Result (list Cotisation) :=
  mapR (fun group =>
          let* l := mapR (variableToCotisation règleLocaliséeSelector) group in
          Ok (fold_left mergeCotisations l BLANK_COTISATION))
       (values (groupBy dottedName variables)).

(** The predicate of the [filter] stage. *)
Definition non_nulle (cotisation : Cotisation) : bool :=
  not_zero (partPatronale (montant cotisation))
  || not_zero (partSalariale (montant cotisation)).

Definition analysisToCotisations (analysis : option Analysis)
    (règleLocaliséeSelector : string -> Result Règle) : Result Cotisations :=
  match analysis with
  | None => Throw TypeError
  | Some a =>
      let* cotisations := mergedCotisations règleLocaliséeSelector (variables a) in
      Ok (groupByBranche (List.filter non_nulle cotisations))
  end.

(** ** Localisation and amounts *)

(** [analysis.cache[dottedName] ||
     analysis.targets.find(target => target.dottedName === dottedName)] *)
Definition find_rule (analysis : Analysis) (dottedName : string) : option EvaluatedNode :=
  match cache analysis !! dottedName with
  | Some rule => Some rule
  | None => List.find (fun target => String.eqb (node_dottedName target) dottedName)
              (targets analysis)
  end.

Section Selectors.

(** The rule catalog and the two functions of [Engine/rules].
    [findRuleByDottedName] yields [None] for a name the catalog does not
    know. *)
Variable FlatRules : Type.
Variable findRuleByDottedName : FlatRules -> string -> option LocalizedRule.
Variable encodeRuleName : string -> string.

Definition règleLocaliséeSelector (localizedFlatRules : option FlatRules)
    (dottedName : string) : Result Règle :=
  match localizedFlatRules with
  | None => Throw MissingRuleCatalog
  | Some flatRules =>
      let localizedRule := findRuleByDottedName flatRules dottedName in
      match localizedFlatRules with
      | None => Throw (RuleNotFound dottedName)
      | Some _ =>
          match localizedRule with
          | None => Throw TypeError
          | Some rule =>
              Ok {| nom := match titre rule with
                           | Some t => if String.eqb t "" then rule_nom rule else t
                           | None => rule_nom rule
                           end;
                    lien := String.append "/règle/" (encodeRuleName dottedName) |}
          end
      end
  end.

Definition règleAvecMontantSelector (analysis : option Analysis)
    (règleLocaliséeSelector : string -> Result Règle)
    (dottedName : string) : Result RègleAvecMontant :=
  match analysis with
  | None => Throw MissingAnalysis
  | Some a =>
      match find_rule a dottedName with
      | None => Throw (RuleNotFoundInAnalysis dottedName)
      | Some rule =>
          let* r := règleLocaliséeSelector dottedName in
          Ok {| rm_règle := r;
                rm_montant := match node_nodeValue rule with
                              | Some v => if v =? 0 then 0 else v
                              | None => 0
                              end |}
      end
  end.

Definition analysisToFicheDePaie (analysis : option Analysis)
    (flatRules : option FlatRules) : Result FicheDePaie :=
  let règleLocalisée := règleLocaliséeSelector flatRules in
  let règleAvecMontant := règleAvecMontantSelector analysis règleLocalisée in
  let* cotisations := analysisToCotisations analysis règleLocalisée in
  let* cotisationsSalariales := règleAvecMontant NOM_COTISATIONS_SALARIALES in
  let* cotisationsPatronales := règleAvecMontant NOM_COTISATIONS_PATRONALES in
  let* réductionsDeCotisations := règleAvecMontant NOM_RÉDUCTIONS in
  let totalCotisations := {|
    partPatronale := Some (rm_montant cotisationsPatronales
                           - rm_montant réductionsDeCotisations);
    partSalariale := Some (rm_montant cotisationsSalariales)
  |} in
  let* salaireDeBase := règleAvecMontant "contrat salarié . salaire . brut de base" in
  let* avantagesEnNature := règleAvecMontant "contrat salarié . avantages en nature . montant" in
  let* salaireBrut := règleAvecMontant "contrat salarié . salaire . brut" in
  let* salaireChargé := règleAvecMontant "contrat salarié . salaire . total" in
  let* salaireNet := règleAvecMontant "contrat salarié . salaire . net" in
  let* salaireNetImposable := règleAvecMontant "contrat salarié . salaire . net imposable" in
  let* salaireNetàPayer := règleAvecMontant "contrat salarié . salaire . net à payer" in
  Ok {| salaireBrut := salaireBrut;
        avantagesEnNature := avantagesEnNature;
        salaireDeBase := salaireDeBase;
        réductionsDeCotisations := réductionsDeCotisations;
        cotisations := cotisations;
        totalCotisations := totalCotisations;
        salaireChargé := salaireChargé;
        salaireNet := salaireNet;
        salaireNetImposable := salaireNetImposable;
        salaireNetàPayer := salaireNetàPayer |}.

End Selectors.

Arguments règleLocaliséeSelector {FlatRules} findRuleByDottedName encodeRuleName
  localizedFlatRules dottedName.
Arguments analysisToFicheDePaie {FlatRules} findRuleByDottedName encodeRuleName
  analysis flatRules.

(** ** A concrete catalog and analysis, used to run the selectors *)

Definition Catalogue : Type := list (string * LocalizedRule).

Definition chercher (catalogue : Catalogue) (dottedName : string) : option LocalizedRule :=
  match List.find (fun entrée => String.eqb (fst entrée) dottedName) catalogue with
  | Some entrée => Some (snd entrée)
  | None => None
  end.

Definition encoder (dottedName : string) : string := dottedName.

Definition sans_titre (n : string) : string * LocalizedRule :=
  (n, {| titre := None; rule_nom := n |}).

Definition catalogue_exemple : Catalogue :=
  [ ("contrat salarié . retraite", {| titre := Some "Retraite"; rule_nom := "retraite" |});
    sans_titre NOM_COTISATIONS_SALARIALES;
    sans_titre NOM_COTISATIONS_PATRONALES;
    sans_titre NOM_RÉDUCTIONS;
    sans_titre "contrat salarié . salaire . brut de base";
    sans_titre "contrat salarié . avantages en nature . montant";
    sans_titre "contrat salarié . salaire . brut";
    sans_titre "contrat salarié . salaire . total";
    sans_titre "contrat salarié . salaire . net";
    sans_titre "contrat salarié . salaire . net imposable";
    sans_titre "contrat salarié . salaire . net à payer" ].

Definition retraite_salarié : VariableWithCotisation := {|
  dottedName := "contrat salarié . retraite";
  nodeValue := 10;
  cotisation := Some {| dû_par := Some salarié; attr_branche := Some retraite |};
  taxe := None;
  explanation := None
|}.

Definition retraite_employeur : VariableWithCotisation := {|
  dottedName := "contrat salarié . retraite";
  nodeValue := 7;
  cotisation := Some {| dû_par := Some employeur; attr_branche := Some retraite |};
  taxe := None;
  explanation := None
|}.

Definition taxe_logement : VariableWithCotisation := {|
  dottedName := "contrat salarié . retraite";
  nodeValue := 3;
  cotisation := None;
  taxe := None;
  explanation := Some {|
    expl_cotisation := None;
    expl_taxe := Some {| dû_par := None; attr_branche := Some logement |} |}
|}.

Definition noeud (n : string) (v : option Z) (vs : option (list VariableWithCotisation))
    : EvaluatedNode :=
  {| node_dottedName := n; node_nodeValue := v; node_variables := vs |}.

Definition analyse_exemple : Analysis := {|
  cache :=
    list_to_map
      [ (NOM_COTISATIONS_SALARIALES,
         noeud NOM_COTISATIONS_SALARIALES (Some 40) (Some [retraite_salarié]));
        (NOM_COTISATIONS_PATRONALES,
         noeud NOM_COTISATIONS_PATRONALES (Some 100) (Some [retraite_employeur]));
        (NOM_RÉDUCTIONS, noeud NOM_RÉDUCTIONS (Some 15) None);
        ("contrat salarié . salaire . brut de base",
         noeud "contrat salarié . salaire . brut de base" (Some 2000) None);
        ("contrat salarié . avantages en nature . montant",
         noeud "contrat salarié . avantages en nature . montant" None None);
        ("contrat salarié . salaire . brut",
         noeud "contrat salarié . salaire . brut" (Some 2000) None);
        ("contrat salarié . salaire . total",
         noeud "contrat salarié . salaire . total" (Some 2085) None) ];
  targets :=
    [ noeud "contrat salarié . salaire . net" (Some 1960) None;
      noeud "contrat salarié . salaire . net imposable" (Some 1960) None;
      noeud "contrat salarié . salaire . net à payer" (Some 1960) None ]
|}.

Definition analyse_vide : Analysis := {| cache := ∅; targets := [] |}.

(** ** Auxiliary definitions used in the statements *)

(** The contributions of [l] whose branch is [b], in the order of [l]. *)
Definition de_branche (b : Branche) (l : list Cotisation) : list Cotisation :=
  List.filter (fun c => bool_decide (branche c = b)) l.

(** The first defined value of a list of attempts, in order. *)
Fixpoint first_defined {A} (xs : list (option A)) : option A :=
  match xs with
  | [] => None
  | Some a :: _ => Some a
  | None :: rest => first_defined rest
  end.

Definition chemins_dû_par (v : VariableWithCotisation) : list (option DuPar) :=
  [ path (cotisation v) dû_par;
    path (taxe v) dû_par;
    path (path (explanation v) expl_cotisation) dû_par;
    path (path (explanation v) expl_taxe) dû_par ].

Definition chemins_branche (v : VariableWithCotisation) : list (option Branche) :=
  [ path (cotisation v) attr_branche;
    path (taxe v) attr_branche;
    path (path (explanation v) expl_cotisation) attr_branche;
    path (path (explanation v) expl_taxe) attr_branche ].

(** The normalized contribution of a variable whose rule is [r]. *)
Definition normalisée (r : Règle) (v : VariableWithCotisation) : Cotisation := {|
  règle := r;
  branche := brancheSelector v;
  montant :=
    match duParSelector v with
    | Some salarié => {| partSalariale := Some (nodeValue v); partPatronale := Some 0 |}
    | _ => {| partSalariale := Some 0; partPatronale := Some (nodeValue v) |}
    end
|}.

Definition somme (xs : list Z) : Z := fold_right Z.add 0 xs.

Definition part_salariale (c : Cotisation) : Z :=
  default 0 (partSalariale (montant c)).

Definition part_patronale (c : Cotisation) : Z :=
  default 0 (partPatronale (montant c)).

(** The result of folding a group from [BLANK_COTISATION]. *)
Definition fusion (cs : list Cotisation) : Cotisation := {|
  règle := règle (List.last cs BLANK_COTISATION);
  branche := branche (List.last cs BLANK_COTISATION);
  montant := {| partSalariale := Some (somme (map part_salariale cs));
                partPatronale := Some (somme (map part_patronale cs)) |}
|}.

(** The contribution of the retirement bucket of the sample payslip. *)
Definition cotisation_retraite : Cotisation := {|
  règle := {| nom := "Retraite"; lien := "/règle/contrat salarié . retraite" |};
  branche := retraite;
  montant := {| partSalariale := Some 10; partPatronale := Some 7 |}
|}.

(** The distinct elements of [ks], in order of first occurrence. *)
Fixpoint premières_occurrences (ks : list string) : list string :=
  match ks with
  | [] => []
  | k :: rest =>
      k :: List.filter (fun k' => negb (String.eqb k' k)) (premières_occurrences rest)
  end.

(** One group per distinct key, in order of first occurrence, holding the
    elements with that key in list order. *)
Definition groupes {A} (f : A -> string) (l : list A) : list (string * list A) :=
  map (fun k => (k, List.filter (fun x => String.eqb (f x) k) l))
      (premières_occurrences (map f l)).

(** The variables of [vs] whose dotted name is [dn], in the order of [vs]. *)
Definition de_nom (dn : string) (vs : list VariableWithCotisation)
    : list VariableWithCotisation :=
  List.filter (fun v => String.eqb (dottedName v) dn) vs.

(** All the contributions of a grouped output, bucket after bucket. *)
Definition contenu (cots : Cotisations) : list Cotisation :=
  concat (map (fun entrée => default [] (snd entrée)) cots).



(** The rule localised for [dn], when there is one. *)
Definition règle_ou_blanc (sel : string -> Result Règle) (dn : string) : Règle :=
  match sel dn with
  | Ok r => r
  | Throw _ => règle BLANK_COTISATION
  end.

(** The dotted names resolved by [analysisToFicheDePaie], in the order in
    which it resolves them. *)
Definition NOMS_DE_LA_FICHE : list string :=
  [ NOM_COTISATIONS_SALARIALES;
    NOM_COTISATIONS_PATRONALES;
    NOM_RÉDUCTIONS;
    "contrat salarié . salaire . brut de base";
    "contrat salarié . avantages en nature . montant";
    "contrat salarié . salaire . brut";
    "contrat salarié . salaire . total";
    "contrat salarié . salaire . net";
    "contrat salarié . salaire . net imposable";
    "contrat salarié . salaire . net à payer" ].

(** The single-amount fields of the payslip with the dotted name each is
    resolved from. *)
Definition CHAMPS_DE_LA_FICHE : list ((FicheDePaie -> RègleAvecMontant) * string) :=
  [ (salaireDeBase, "contrat salarié . salaire . brut de base");
    (avantagesEnNature, "contrat salarié . avantages en nature . montant");
    (salaireBrut, "contrat salarié . salaire . brut");
    (réductionsDeCotisations, NOM_RÉDUCTIONS);
    (salaireChargé, "contrat salarié . salaire . total");
    (salaireNet, "contrat salarié . salaire . net");
    (salaireNetImposable, "contrat salarié . salaire . net imposable");
    (salaireNetàPayer, "contrat salarié . salaire . net à payer") ].

(** The value of the node found for [dn], 0 when it has none. *)
Definition montant_de (a : Analysis) (dn : string) : Z :=
  default 0 (path (find_rule a dn) node_nodeValue).




(** The aggregates are only among the targets, not in the cache. *)
Definition analyse_cibles : Analysis := {|
  cache := ∅;
  targets :=
    [ noeud NOM_COTISATIONS_SALARIALES (Some 10) (Some [retraite_salarié]);
      noeud NOM_COTISATIONS_PATRONALES (Some 7) (Some [retraite_employeur]) ]
|}.

(** * Properties *)

(** ** The error monad *)

Lemma bind_Ok {A B} (r : Result A) (k : A -> Result B) (b : B) :
  bind r k = Ok b -> exists a, r = Ok a /\ k a = Ok b.
Proof.
  destruct r as [a|e]; simpl; intros H.
  - exists a. split; [reflexivity | exact H].
  - discriminate H.
Qed.

Ltac inv_bind H :=
  let a := fresh "x" in
  let Ha := fresh "Hx" in
  apply bind_Ok in H; destruct H as (a & Ha & H).

Lemma mapR_In {A B} (f : A -> Result B) (l : list A) (l' : list B) :
  mapR f l = Ok l' ->
  forall y, In y l' -> exists x, In x l /\ f x = Ok y.
Proof.
  revert l'. induction l as [|x l IH]; simpl; intros l' H y Hy.
  - injection H as <-. destruct Hy.
  - inv_bind H. inv_bind H. injection H as <-.
    destruct Hy as [<-|Hy].
    + exists x. split; [left; reflexivity | assumption].
    + destruct (IH _ Hx0 y Hy) as (x' & Hin & Hf).
      exists x'. split; [right; assumption | assumption].
Qed.

(** ** Grouping by branch *)

Lemma cotisationsMap_lookup (l : list Cotisation)
    (m : gmap Branche (list Cotisation)) (b : Branche) :
  fold_left
    (fun (acc : gmap Branche (list Cotisation)) cotisation =>
       <[ branche cotisation :=
            cotisation :: default [] (acc !! branche cotisation) ]> acc)
    l m !! b
  = match de_branche b l with
    | [] => m !! b
    | _ :: _ => Some (rev (de_branche b l) ++ default [] (m !! b))
    end.
Proof.
  revert m. induction l as [|c l IH]; intros m; [reflexivity|].
  cbn [fold_left]. rewrite IH. unfold de_branche at 3 4. cbn [List.filter].
  fold (de_branche b l). destruct (decide (branche c = b)) as [Heq|Hne].
  - rewrite (bool_decide_eq_true_2 _ Heq). subst b.
    rewrite lookup_insert_eq. cbn [default rev].
    destruct (de_branche (branche c) l) as [|c' l'].
    + reflexivity.
    + rewrite <- app_assoc. reflexivity.
  - rewrite (bool_decide_eq_false_2 _ Hne).
    rewrite lookup_insert_ne by exact Hne. reflexivity.
Qed.

Lemma groupByBranche_In (l : list Cotisation) (b : Branche)
    (cs : list Cotisation) (c : Cotisation) :
  In (b, Some cs) (groupByBranche l) -> In c cs -> In c l.
Proof.
  unfold groupByBranche. intros H Hc.
  apply in_map_iff in H. destruct H as (b' & Heq & _).
  injection Heq as -> Heq. rewrite cotisationsMap_lookup in Heq.
  rewrite lookup_empty in Heq. cbn [default] in Heq. rewrite app_nil_r in Heq.
  destruct (de_branche b l) as [|c' l'] eqn:E; [discriminate Heq|].
  injection Heq as <-. change (In c (rev (c' :: l'))) in Hc.
  rewrite <- in_rev, <- E in Hc.
  apply filter_In in Hc. tauto.
Qed.

(** C10: each bucket of [groupByBranche] holds the contributions of its
    branch in the reverse of their order in the input list (every
    contribution is prepended to the bucket of its branch); a branch
    without contribution has no bucket at all. *)
Theorem groupByBranche_reverse_order (l : list Cotisation) :
  groupByBranche l
  = map (fun b => (b, match de_branche b l with
                      | [] => None
                      | _ :: _ => Some (rev (de_branche b l))
                      end))
        COTISATION_BRANCHE_ORDER.
Proof.
  unfold groupByBranche. apply map_ext. intros b.
  rewrite cotisationsMap_lookup, lookup_empty. cbn [default].
  rewrite app_nil_r. reflexivity.
Qed.

(** C2: the grouped output always lists the seven branches in declaration
    order, but a branch without contribution is paired with [undefined]
    and not with an empty list: with no contribution at all, every one of
    the seven entries is [undefined]. *)
Theorem groupByBranche_empty_branch_undefined :
  (forall l, map fst (groupByBranche l) = COTISATION_BRANCHE_ORDER)
  /\ (forall l, length (groupByBranche l) = 7%nat)
  /\ groupByBranche []
     = [ (santé, None); (accidents_du_travail, None); (retraite, None);
         (famille, None); (assurance_chômage, None); (logement, None);
         (autres, None) ]
  /\ (forall sel, analysisToCotisations (Some analyse_vide) sel
                  = Ok (map (fun b => (b, None)) COTISATION_BRANCHE_ORDER))
  /\ (forall l b, de_branche b l = [] <-> In (b, None) (groupByBranche l)).
Proof.
  split; [|split; [|split; [|split]]].
  - intros l. unfold groupByBranche. rewrite map_map. cbn [fst].
    apply map_id.
  - intros l. unfold groupByBranche. rewrite length_map. reflexivity.
  - reflexivity.
  - intros sel. reflexivity.
  - intros l b. unfold groupByBranche. rewrite in_map_iff. split.
    + intros E. exists b. split.
      * rewrite cotisationsMap_lookup, E, lookup_empty. reflexivity.
      * destruct b; cbn; tauto.
    + intros (b' & Heq & _). injection Heq as -> Heq.
      rewrite cotisationsMap_lookup, lookup_empty in Heq.
      destruct (de_branche b l); [reflexivity | discriminate Heq].
Qed.

(** ** Payer and branch of a raw variable *)

Lemma first_filter_Boolean {A} (xs : list (option A)) :
  first (List.filter Boolean xs) = first_defined xs.
Proof.
  induction xs as [|[a|] xs IH]; simpl; [reflexivity | reflexivity | exact IH].
Qed.

Lemma duParSelector_first_defined (v : VariableWithCotisation) :
  duParSelector v = first_defined (chemins_dû_par v).
Proof. unfold duParSelector. apply first_filter_Boolean. Qed.

Lemma brancheSelector_first_defined (v : VariableWithCotisation) :
  brancheSelector v = default autres (first_defined (chemins_branche v)).
Proof. unfold brancheSelector. f_equal. apply first_filter_Boolean. Qed.

Lemma variableToCotisation_Ok (sel : string -> Result Règle)
    (v : VariableWithCotisation) (r : Règle) :
  sel (dottedName v) = Ok r -> variableToCotisation sel v = Ok (normalisée r v).
Proof.
  intros H. unfold variableToCotisation, normalisée. rewrite H. cbn [bind].
  unfold mergeCotisations, mergeMontant. cbn.
  destruct (duParSelector v) as [[|]|]; reflexivity.
Qed.

Lemma variableToCotisation_inv (sel : string -> Result Règle)
    (v : VariableWithCotisation) (c : Cotisation) :
  variableToCotisation sel v = Ok c ->
  exists r, sel (dottedName v) = Ok r /\ c = normalisée r v.
Proof.
  intros H. destruct (sel (dottedName v)) as [r|e] eqn:E.
  - exists r. split; [reflexivity|].
    rewrite (variableToCotisation_Ok _ _ _ E) in H. congruence.
  - unfold variableToCotisation in H. rewrite E in H. discriminate H.
Qed.

(** C6: the payer is the first defined value among [cotisation.dû par],
    [taxe.dû par], [explanation.cotisation.dû par] and
    [explanation.taxe.dû par]; the whole [nodeValue] goes to the employee
    share exactly when that payer is ['salarié'], otherwise (also when no
    payer is defined) to the employer share, and the other share is 0. *)
Theorem variableToCotisation_payer (sel : string -> Result Règle)
    (v : VariableWithCotisation) (r : Règle) :
  sel (dottedName v) = Ok r ->
  duParSelector v
  = first_defined
      [ path (cotisation v) dû_par;
        path (taxe v) dû_par;
        path (path (explanation v) expl_cotisation) dû_par;
        path (path (explanation v) expl_taxe) dû_par ]
  /\ variableToCotisation sel v
     = Ok {| règle := r;
             branche := brancheSelector v;
             montant :=
               match duParSelector v with
               | Some salarié =>
                   {| partSalariale := Some (nodeValue v); partPatronale := Some 0 |}
               | Some employeur | None =>
                   {| partSalariale := Some 0; partPatronale := Some (nodeValue v) |}
               end |}.
Proof.
  intros H. split.
  - apply duParSelector_first_defined.
  - rewrite (variableToCotisation_Ok _ _ _ H). unfold normalisée.
    destruct (duParSelector v) as [[|]|]; reflexivity.
Qed.

Lemma variableToCotisation_payer_witness :
  règleLocaliséeSelector chercher encoder (Some catalogue_exemple)
    (dottedName retraite_salarié)
  = Ok {| nom := "Retraite"; lien := "/règle/contrat salarié . retraite" |}
  /\ duParSelector retraite_salarié = Some salarié
  /\ variableToCotisation
       (règleLocaliséeSelector chercher encoder (Some catalogue_exemple))
       retraite_salarié
     = Ok {| règle := {| nom := "Retraite"; lien := "/règle/contrat salarié . retraite" |};
             branche := retraite;
             montant := {| partSalariale := Some 10; partPatronale := Some 0 |} |}.
Proof.
  split; [reflexivity|].
  exact (variableToCotisation_payer
           (règleLocaliséeSelector chercher encoder (Some catalogue_exemple))
           retraite_salarié
           {| nom := "Retraite"; lien := "/règle/contrat salarié . retraite" |}
           eq_refl).
Defined.

Lemma groupByBranche_singleton (c : Cotisation) :
  groupByBranche [c]
  = map (fun b => (b, if bool_decide (b = branche c) then Some [c] else None))
        COTISATION_BRANCHE_ORDER.
Proof.
  unfold groupByBranche. apply map_ext. intros b. cbn [fold_left].
  rewrite lookup_empty. cbn [default]. f_equal. case_bool_decide as Hb.
  - subst b. apply lookup_insert_eq.
  - rewrite lookup_insert_ne by congruence. apply lookup_empty.
Qed.

(** C7: the branch is the first defined value among [cotisation.branche],
    [taxe.branche], [explanation.cotisation.branche] and
    [explanation.taxe.branche], and ['autres'] when none is defined; the
    normalized contribution carries that branch and is grouped under it.
    A variable whose only branch field is
    [explanation.taxe.branche = 'logement'] goes to ['logement'], one
    without any branch field to ['autres']. *)
Theorem brancheSelector_fallback (sel : string -> Result Règle)
    (v : VariableWithCotisation) (r : Règle) :
  sel (dottedName v) = Ok r ->
  brancheSelector v
  = default autres
      (first_defined
         [ path (cotisation v) attr_branche;
           path (taxe v) attr_branche;
           path (path (explanation v) expl_cotisation) attr_branche;
           path (path (explanation v) expl_taxe) attr_branche ])
  /\ (exists c,
        variableToCotisation sel v = Ok c
        /\ branche c = brancheSelector v
        /\ groupByBranche [c]
           = map (fun b => (b, if bool_decide (b = brancheSelector v)
                               then Some [c] else None))
                 COTISATION_BRANCHE_ORDER)
  /\ (path (cotisation v) attr_branche = None ->
      path (taxe v) attr_branche = None ->
      path (path (explanation v) expl_cotisation) attr_branche = None ->
      path (path (explanation v) expl_taxe) attr_branche = Some logement ->
      brancheSelector v = logement)
  /\ (path (cotisation v) attr_branche = None ->
      path (taxe v) attr_branche = None ->
      path (path (explanation v) expl_cotisation) attr_branche = None ->
      path (path (explanation v) expl_taxe) attr_branche = None ->
      brancheSelector v = autres).
Proof.
  intros H. split; [|split; [|split]].
  - apply brancheSelector_first_defined.
  - exists (normalisée r v). split; [|split].
    + apply variableToCotisation_Ok, H.
    + reflexivity.
    + apply groupByBranche_singleton.
  - intros H1 H2 H3 H4. rewrite brancheSelector_first_defined.
    unfold chemins_branche. rewrite H1, H2, H3, H4. reflexivity.
  - intros H1 H2 H3 H4. rewrite brancheSelector_first_defined.
    unfold chemins_branche. rewrite H1, H2, H3, H4. reflexivity.
Qed.

Lemma brancheSelector_fallback_witness :
  règleLocaliséeSelector chercher encoder (Some catalogue_exemple)
    (dottedName taxe_logement)
  = Ok {| nom := "Retraite"; lien := "/règle/contrat salarié . retraite" |}
  /\ brancheSelector taxe_logement = logement.
Proof.
  split; [reflexivity|].
  refine (proj1 (proj2 (proj2
    (brancheSelector_fallback
       (règleLocaliséeSelector chercher encoder (Some catalogue_exemple))
       taxe_logement
       {| nom := "Retraite"; lien := "/règle/contrat salarié . retraite" |}
       eq_refl))) eq_refl eq_refl eq_refl eq_refl).
Defined.

(** ** Merging the contributions of one rule *)

Lemma Cotisation_eta (c : Cotisation) :
  c = {| règle := règle c; branche := branche c; montant := montant c |}.
Proof. destruct c; reflexivity. Qed.

Lemma mergeWith_add_Some (x : Z) (o : option Z) :
  mergeWith_add (Some x) o = Some (x + default 0 o).
Proof. destruct o as [y|]; simpl; [reflexivity | f_equal; lia]. Qed.

Lemma fold_mergeCotisations_montant (cs : list Cotisation) (acc : Cotisation)
    (s p : Z) :
  montant acc = {| partSalariale := Some s; partPatronale := Some p |} ->
  montant (fold_left mergeCotisations cs acc)
  = {| partSalariale := Some (s + somme (map part_salariale cs));
       partPatronale := Some (p + somme (map part_patronale cs)) |}.
Proof.
  revert acc s p. induction cs as [|c cs IH]; intros acc s p H; cbn.
  - rewrite H, !Z.add_0_r. reflexivity.
  - rewrite (IH _ (s + part_salariale c) (p + part_patronale c)).
    + rewrite !Z.add_assoc. reflexivity.
    + change (montant (mergeCotisations acc c))
        with (mergeMontant (montant acc) (montant c)).
      rewrite H. unfold mergeMontant. cbn [partSalariale partPatronale].
      rewrite !mergeWith_add_Some. reflexivity.
Qed.

Lemma last_cons_default {A} (l : list A) (x d d' : A) :
  List.last (x :: l) d = List.last (x :: l) d'.
Proof.
  revert x. induction l as [|y l IH]; intros x; [reflexivity|].
  change (List.last (y :: l) d = List.last (y :: l) d'). apply IH.
Qed.

Lemma fold_mergeCotisations_last (cs : list Cotisation) (acc : Cotisation) :
  règle (fold_left mergeCotisations cs acc) = règle (List.last cs acc)
  /\ branche (fold_left mergeCotisations cs acc) = branche (List.last cs acc).
Proof.
  revert acc. induction cs as [|c cs IH]; intros acc; [split; reflexivity|].
  cbn [fold_left]. destruct (IH (mergeCotisations acc c)) as [Hr Hb].
  rewrite Hr, Hb. destruct cs as [|c' cs]; [split; reflexivity|].
  change (List.last (c :: c' :: cs) acc) with (List.last (c' :: cs) acc).
  rewrite (last_cons_default cs c' (mergeCotisations acc c) acc).
  split; reflexivity.
Qed.

Lemma fold_mergeCotisations_fusion (cs : list Cotisation) :
  fold_left mergeCotisations cs BLANK_COTISATION = fusion cs.
Proof.
  rewrite (Cotisation_eta (fold_left _ _ _)). unfold fusion.
  destruct (fold_mergeCotisations_last cs BLANK_COTISATION) as [-> ->].
  rewrite (fold_mergeCotisations_montant cs BLANK_COTISATION 0 0 eq_refl).
  reflexivity.
Qed.

Lemma groupBy_fold_same_key {A} (f : A -> string) (k : string) (l xs : list A) :
  Forall (fun x => f x = k) l ->
  fold_left (fun acc x => groupBy_add (f x) x acc) l [(k, xs)] = [(k, xs ++ l)].
Proof.
  revert xs. induction l as [|x l IH]; intros xs H.
  - rewrite app_nil_r. reflexivity.
  - inversion H as [|? ? Hx Hl]; subst. cbn [fold_left groupBy_add].
    rewrite String.eqb_refl, (IH _ Hl), <- app_assoc. reflexivity.
Qed.

Lemma groupBy_same_key {A} (f : A -> string) (k : string) (l : list A) :
  l <> [] -> Forall (fun x => f x = k) l -> values (groupBy f l) = [l].
Proof.
  intros Hl H. destruct l as [|x l]; [congruence|].
  inversion H as [|? ? Hx Hl']; subst. unfold groupBy. cbn [fold_left groupBy_add].
  rewrite (groupBy_fold_same_key f (f x) l [x] Hl'). reflexivity.
Qed.

(** C3: a group of raw variables sharing a dotted name merges into a
    single contribution: the fold from the blank contribution sums the
    employee shares and the employer shares independently, and takes
    label, link and branch from the last element of the group.  With two
    variables, the first due by the employee for 10 and the second due by
    the employer for 7, the merged amount is [{partSalariale: 10,
    partPatronale: 7}]. *)
Theorem mergeCotisations_group (sel : string -> Result Règle) (dn : string)
    (vs : list VariableWithCotisation) (cs : list Cotisation) :
  vs <> [] ->
  Forall (fun v => dottedName v = dn) vs ->
  mapR (variableToCotisation sel) vs = Ok cs ->
  let merged := {|
    règle := règle (List.last cs BLANK_COTISATION);
    branche := branche (List.last cs BLANK_COTISATION);
    montant := {| partSalariale := Some (somme (map part_salariale cs));
                  partPatronale := Some (somme (map part_patronale cs)) |}
  |} in
  fold_left mergeCotisations cs BLANK_COTISATION = merged
  /\ mergedCotisations sel vs = Ok [merged]
  /\ (forall v1 v2,
        vs = [v1; v2] ->
        duParSelector v1 = Some salarié -> nodeValue v1 = 10 ->
        duParSelector v2 <> Some salarié -> nodeValue v2 = 7 ->
        montant merged = {| partSalariale := Some 10; partPatronale := Some 7 |}
        /\ règle merged = règle (List.last cs BLANK_COTISATION)
        /\ branche merged = brancheSelector v2).
Proof.
  intros Hne Hdn Hcs merged. split; [|split].
  - apply fold_mergeCotisations_fusion.
  - unfold mergedCotisations. rewrite (groupBy_same_key _ dn vs Hne Hdn).
    cbn [mapR]. rewrite Hcs. cbn [bind].
    rewrite fold_mergeCotisations_fusion. reflexivity.
  - intros v1 v2 -> Hp1 Hv1 Hp2 Hv2. cbn [mapR] in Hcs.
    inv_bind Hcs. inv_bind Hcs. injection Hcs as <-.
    inv_bind Hx0. inv_bind Hx0. injection Hx2 as <-. injection Hx0 as <-.
    apply variableToCotisation_inv in Hx. destruct Hx as (r1 & _ & ->).
    apply variableToCotisation_inv in Hx1. destruct Hx1 as (r2 & _ & ->).
    subst merged. cbn. unfold part_salariale, part_patronale, normalisée. cbn.
    rewrite Hp1, Hv1, Hv2.
    destruct (duParSelector v2) as [[|]|]; [congruence| |]; cbn; auto.
Qed.

Lemma mergeCotisations_group_witness :
  let sel := règleLocaliséeSelector chercher encoder (Some catalogue_exemple) in
  let r := {| nom := "Retraite"; lien := "/règle/contrat salarié . retraite" |} in
  [retraite_salarié; retraite_employeur] <> []
  /\ Forall (fun v => dottedName v = "contrat salarié . retraite")
        [retraite_salarié; retraite_employeur]
  /\ mapR (variableToCotisation sel) [retraite_salarié; retraite_employeur]
     = Ok [normalisée r retraite_salarié; normalisée r retraite_employeur]
  /\ mergedCotisations sel [retraite_salarié; retraite_employeur]
     = Ok [ {| règle := r;
               branche := retraite;
               montant := {| partSalariale := Some 10; partPatronale := Some 7 |} |} ].
Proof.
  intros sel r.
  assert (H1 : [retraite_salarié; retraite_employeur] <> []) by discriminate.
  assert (H2 : Forall (fun v => dottedName v = "contrat salarié . retraite")
                 [retraite_salarié; retraite_employeur])
    by (repeat constructor).
  assert (H3 : mapR (variableToCotisation sel) [retraite_salarié; retraite_employeur]
               = Ok [normalisée r retraite_salarié; normalisée r retraite_employeur])
    by reflexivity.
  split; [exact H1 | split; [exact H2 | split; [exact H3 |]]].
  exact (proj1 (proj2 (mergeCotisations_group sel _ _ _ H1 H2 H3))).
Defined.

(** ** Zero contributions are filtered out *)

Lemma mergedCotisations_montant (sel : string -> Result Règle)
    (vs : list VariableWithCotisation) (cs : list Cotisation) (c : Cotisation) :
  mergedCotisations sel vs = Ok cs -> In c cs ->
  exists s p, montant c = {| partSalariale := Some s; partPatronale := Some p |}.
Proof.
  unfold mergedCotisations. intros H Hc.
  destruct (mapR_In _ _ _ H c Hc) as (group & _ & Hg).
  inv_bind Hg. injection Hg as <-. rewrite fold_mergeCotisations_fusion.
  unfold fusion. cbn [montant]. eauto.
Qed.

Lemma analysisToCotisations_non_nulle (a : option Analysis)
    (sel : string -> Result Règle) (cots : Cotisations)
    (b : Branche) (cs : list Cotisation) (c : Cotisation) :
  analysisToCotisations a sel = Ok cots ->
  In (b, Some cs) cots -> In c cs ->
  exists s p,
    montant c = {| partSalariale := Some s; partPatronale := Some p |}
    /\ (s <> 0 \/ p <> 0).
Proof.
  intros H Hb Hc. destruct a as [a|]; [|discriminate H].
  cbn [analysisToCotisations] in H. inv_bind H. injection H as <-.
  pose proof (groupByBranche_In _ _ _ _ Hb Hc) as Hin.
  apply filter_In in Hin. destruct Hin as [Hin Hnz].
  destruct (mergedCotisations_montant _ _ _ _ Hx Hin) as (s & p & Hm).
  exists s, p. split; [exact Hm|].
  unfold non_nulle in Hnz. rewrite Hm in Hnz.
  cbn [partSalariale partPatronale not_zero] in Hnz.
  destruct (Z.eq_dec p 0) as [Hp|Hp]; [|right; exact Hp].
  destruct (Z.eq_dec s 0) as [Hs|Hs]; [|left; exact Hs].
  rewrite Hp, Hs in Hnz. discriminate Hnz.
Qed.

(** C4: in an assembled payslip, every contribution of every branch bucket
    has both shares defined and at least one of them different from 0. *)
Theorem cotisations_non_nulles (FlatRules : Type)
    (findRuleByDottedName : FlatRules -> string -> option LocalizedRule)
    (encodeRuleName : string -> string)
    (analysis : option Analysis) (flatRules : option FlatRules)
    (fiche : FicheDePaie) (b : Branche) (cs : list Cotisation) (c : Cotisation) :
  analysisToFicheDePaie findRuleByDottedName encodeRuleName analysis flatRules
  = Ok fiche ->
  In (b, Some cs) (cotisations fiche) ->
  In c cs ->
  exists s p,
    montant c = {| partSalariale := Some s; partPatronale := Some p |}
    /\ (s <> 0 \/ p <> 0).
Proof.
  unfold analysisToFicheDePaie. intros H Hb Hc.
  inv_bind H. do 10 inv_bind H. injection H as <-. cbn [cotisations] in Hb.
  exact (analysisToCotisations_non_nulle _ _ _ _ _ _ Hx Hb Hc).
Qed.

Lemma cotisations_non_nulles_witness :
  exists fiche,
    analysisToFicheDePaie chercher encoder (Some analyse_exemple)
      (Some catalogue_exemple) = Ok fiche
    /\ In (retraite, Some [cotisation_retraite]) (cotisations fiche)
    /\ In cotisation_retraite [cotisation_retraite]
    /\ exists s p,
         montant cotisation_retraite
         = {| partSalariale := Some s; partPatronale := Some p |}
         /\ (s <> 0 \/ p <> 0).
Proof.
  destruct (analysisToFicheDePaie chercher encoder (Some analyse_exemple)
              (Some catalogue_exemple)) as [fiche|e] eqn:E;
    [|vm_compute in E; discriminate E].
  exists fiche.
  assert (Hb : In (retraite, Some [cotisation_retraite]) (cotisations fiche)).
  { vm_compute in E. injection E as <-. cbn. tauto. }
  assert (Hc : In cotisation_retraite [cotisation_retraite]) by (left; reflexivity).
  split; [reflexivity | split; [exact Hb | split; [exact Hc |]]].
  exact (cotisations_non_nulles _ chercher encoder _ _ fiche retraite
           [cotisation_retraite] cotisation_retraite E Hb Hc).
Defined.

(** ** Totals *)

(** C1: when assembly succeeds, the three aggregates were resolved and
    [totalCotisations] holds the employer aggregate minus the reductions
    on the employer side and the employee aggregate on the employee side. *)
Theorem totalCotisations_spec (FlatRules : Type)
    (findRuleByDottedName : FlatRules -> string -> option LocalizedRule)
    (encodeRuleName : string -> string)
    (analysis : option Analysis) (flatRules : option FlatRules)
    (fiche : FicheDePaie) :
  analysisToFicheDePaie findRuleByDottedName encodeRuleName analysis flatRules
  = Ok fiche ->
  exists cotisationsSalariales cotisationsPatronales réductions,
    règleAvecMontantSelector analysis
      (règleLocaliséeSelector findRuleByDottedName encodeRuleName flatRules)
      NOM_COTISATIONS_SALARIALES = Ok cotisationsSalariales
    /\ règleAvecMontantSelector analysis
         (règleLocaliséeSelector findRuleByDottedName encodeRuleName flatRules)
         NOM_COTISATIONS_PATRONALES = Ok cotisationsPatronales
    /\ règleAvecMontantSelector analysis
         (règleLocaliséeSelector findRuleByDottedName encodeRuleName flatRules)
         NOM_RÉDUCTIONS = Ok réductions
    /\ réductionsDeCotisations fiche = réductions
    /\ totalCotisations fiche
       = {| partSalariale := Some (rm_montant cotisationsSalariales);
            partPatronale := Some (rm_montant cotisationsPatronales
                                   - rm_montant réductions) |}.
Proof.
  unfold analysisToFicheDePaie. intros H.
  inv_bind H. do 10 inv_bind H. injection H as <-.
  exists x0, x1, x2. cbn. auto.
Qed.

Lemma totalCotisations_spec_witness :
  exists fiche,
    analysisToFicheDePaie chercher encoder (Some analyse_exemple)
      (Some catalogue_exemple) = Ok fiche
    /\ totalCotisations fiche
       = {| partSalariale := Some 40; partPatronale := Some 85 |}.
Proof.
  destruct (analysisToFicheDePaie chercher encoder (Some analyse_exemple)
              (Some catalogue_exemple)) as [fiche|e] eqn:E;
    [|vm_compute in E; discriminate E].
  exists fiche. split; [reflexivity|].
  destruct (totalCotisations_spec _ chercher encoder _ _ fiche E)
    as (cs & cp & rd & Hs & Hp & Hr & _ & Ht).
  vm_compute in Hs, Hp, Hr.
  injection Hs as <-. injection Hp as <-. injection Hr as <-.
  exact Ht.
Defined.

(** ** Rule localisation *)

Section Localisation.

Variable FlatRules : Type.
Variable findRuleByDottedName : FlatRules -> string -> option LocalizedRule.
Variable encodeRuleName : string -> string.

Let localiser := règleLocaliséeSelector findRuleByDottedName encodeRuleName.

Lemma localized_rule_errors (flatRules : option FlatRules)
    (dottedName : string) (e : Erreur) :
  localiser flatRules dottedName = Throw e ->
  e = MissingRuleCatalog \/ e = TypeError.
Proof.
  unfold localiser, règleLocaliséeSelector.
  destruct flatRules as [fr|]; [|intros [= <-]; left; reflexivity].
  destruct (findRuleByDottedName fr dottedName); [discriminate|].
  intros [= <-]. right; reflexivity.
Qed.

Lemma localized_rule_absent_catalog (dottedName : string) :
  localiser None dottedName = Throw MissingRuleCatalog.
Proof. reflexivity. Qed.

End Localisation.

(** C5: with a catalog that is present but does not know the name, the
    selector does not report the rule-not-found error: its second guard
    tests the catalog again, so the unknown rule is only noticed when
    [localizedRule.titre] is read, which throws a [TypeError]. *)
Theorem localized_rule_unknown_TypeError (FlatRules : Type)
    (findRuleByDottedName : FlatRules -> string -> option LocalizedRule)
    (encodeRuleName : string -> string)
    (flatRules : FlatRules) (dottedName : string) :
  findRuleByDottedName flatRules dottedName = None ->
  règleLocaliséeSelector findRuleByDottedName encodeRuleName
    (Some flatRules) dottedName = Throw TypeError
  /\ règleLocaliséeSelector findRuleByDottedName encodeRuleName
       (Some flatRules) dottedName <> Throw (RuleNotFound dottedName).
Proof.
  intros H. unfold règleLocaliséeSelector. rewrite H.
  split; [reflexivity | discriminate].
Qed.

Lemma localized_rule_unknown_TypeError_witness :
  chercher catalogue_exemple "contrat salarié . inconnue" = None
  /\ règleLocaliséeSelector chercher encoder (Some catalogue_exemple)
       "contrat salarié . inconnue" = Throw TypeError.
Proof.
  split; [reflexivity|].
  exact (proj1 (localized_rule_unknown_TypeError _ chercher encoder
                  catalogue_exemple "contrat salarié . inconnue" eq_refl)).
Defined.

(** ** Amount resolution *)

Lemma find_None {A} (f : A -> bool) (l : list A) :
  List.find f l = None <-> forall x, In x l -> f x = false.
Proof.
  split; [apply find_none|].
  induction l as [|x l IH]; intros H; [reflexivity|]. cbn.
  rewrite (H x (or_introl eq_refl)). apply IH.
  intros y Hy. apply H. right; exact Hy.
Qed.

Lemma find_rule_None (a : Analysis) (dn : string) :
  find_rule a dn = None
  <-> cache a !! dn = None
      /\ forall target, In target (targets a) -> node_dottedName target <> dn.
Proof.
  unfold find_rule. destruct (cache a !! dn) as [node|].
  - split; [discriminate | intros [H _]; discriminate H].
  - rewrite find_None. split.
    + intros H. split; [reflexivity|]. intros t Ht.
      apply String.eqb_neq, H, Ht.
    + intros [_ H] t Ht. apply String.eqb_neq, H, Ht.
Qed.

Lemma montant_falsy (o : option Z) :
  match o with
  | Some v => if v =? 0 then 0 else v
  | None => 0
  end = default 0 o.
Proof.
  destruct o as [v|]; [|reflexivity]. cbn.
  destruct (Z.eqb_spec v 0); congruence.
Qed.

(** C9: amount resolution uses the node of [analysis.cache] when there is
    one, otherwise the first target with that identifier; it throws the
    rule-not-found-in-analysis error exactly when neither has the name;
    and the amount of a found node is its value, or 0 when the value is
    missing or falsy, which raises no error of its own. *)
Theorem amount_resolution_lookup (FlatRules : Type)
    (findRuleByDottedName : FlatRules -> string -> option LocalizedRule)
    (encodeRuleName : string -> string)
    (a : Analysis) (flatRules : option FlatRules) (dn : string) :
  let sel := règleLocaliséeSelector findRuleByDottedName encodeRuleName flatRules in
  let résultat := règleAvecMontantSelector (Some a) sel dn in
  let trouvée (node : EvaluatedNode) :=
    let* r := sel dn in
    Ok {| rm_règle := r; rm_montant := default 0 (node_nodeValue node) |} in
  (forall node, cache a !! dn = Some node -> résultat = trouvée node)
  /\ (forall node,
        cache a !! dn = None ->
        List.find (fun target => String.eqb (node_dottedName target) dn) (targets a)
        = Some node ->
        résultat = trouvée node)
  /\ (résultat = Throw (RuleNotFoundInAnalysis dn)
      <-> cache a !! dn = None
          /\ forall target, In target (targets a) -> node_dottedName target <> dn)
  /\ (forall node r,
        find_rule a dn = Some node ->
        node_nodeValue node = None \/ node_nodeValue node = Some 0 ->
        sel dn = Ok r ->
        résultat = Ok {| rm_règle := r; rm_montant := 0 |}).
Proof.
  intros sel résultat trouvée. subst résultat trouvée.
  unfold règleAvecMontantSelector. split; [|split; [|split]].
  - intros node H. unfold find_rule. rewrite H, montant_falsy. reflexivity.
  - intros node Hc Ht. unfold find_rule. rewrite Hc, Ht, montant_falsy.
    reflexivity.
  - rewrite <- find_rule_None. destruct (find_rule a dn) as [node|].
    + split; [|discriminate]. intros H.
      destruct (sel dn) as [r|e] eqn:E; [discriminate H|].
      cbn in H. injection H as ->.
      apply localized_rule_errors in E. destruct E; discriminate.
    + split; reflexivity.
  - intros node r Hf Hv Hr. rewrite Hf, Hr, montant_falsy. cbn [bind].
    destruct Hv as [-> | ->]; reflexivity.
Qed.

Lemma amount_resolution_lookup_witness :
  cache analyse_exemple !! "contrat salarié . avantages en nature . montant"
  = Some (noeud "contrat salarié . avantages en nature . montant" None None)
  /\ règleAvecMontantSelector (Some analyse_exemple)
       (règleLocaliséeSelector chercher encoder (Some catalogue_exemple))
       "contrat salarié . avantages en nature . montant"
     = Ok {| rm_règle :=
               {| nom := "contrat salarié . avantages en nature . montant";
                  lien := "/règle/contrat salarié . avantages en nature . montant" |};
             rm_montant := 0 |}.
Proof.
  assert (H : cache analyse_exemple !! "contrat salarié . avantages en nature . montant"
              = Some (noeud "contrat salarié . avantages en nature . montant" None None))
    by (vm_compute; reflexivity).
  split; [exact H|].
  exact (proj1 (amount_resolution_lookup _ chercher encoder analyse_exemple
                  (Some catalogue_exemple)
                  "contrat salarié . avantages en nature . montant") _ H).
Defined.

(** ** Assembly without a catalog *)

Lemma groupBy_fold_head {A} (f : A -> string) (l : list A) (k : string)
    (x : A) (xs : list A) (rest : list (string * list A)) :
  exists xs' rest',
    fold_left (fun acc y => groupBy_add (f y) y acc) l ((k, x :: xs) :: rest)
    = (k, x :: xs') :: rest'.
Proof.
  revert xs rest. induction l as [|y l IH]; intros xs rest.
  - exists xs, rest. reflexivity.
  - cbn [fold_left groupBy_add]. destruct (String.eqb (f y) k).
    + apply (IH (xs ++ [y]) rest).
    + apply IH.
Qed.

Lemma mergedCotisations_nil (sel : string -> Result Règle) :
  mergedCotisations sel [] = Ok [].
Proof. reflexivity. Qed.

Lemma mergedCotisations_Throw (sel : string -> Result Règle) (e : Erreur)
    (v : VariableWithCotisation) (vs : list VariableWithCotisation) :
  sel (dottedName v) = Throw e ->
  mergedCotisations sel (v :: vs) = Throw e.
Proof.
  intros H. unfold mergedCotisations, groupBy. cbn [fold_left groupBy_add].
  destruct (groupBy_fold_head dottedName vs (dottedName v) v [] [])
    as (xs' & rest' & ->).
  unfold values. cbn [map snd mapR]. unfold variableToCotisation at 1.
  rewrite H. reflexivity.
Qed.

(** With an absent analysis the first thing read is [analysis.cache], in
    [analysisToCotisations], so the guard of [règleAvecMontantSelector] is
    never reached from [analysisToFicheDePaie]. *)
Lemma absent_analysis_TypeError (FlatRules : Type)
    (findRuleByDottedName : FlatRules -> string -> option LocalizedRule)
    (encodeRuleName : string -> string) (flatRules : option FlatRules) :
  analysisToFicheDePaie findRuleByDottedName encodeRuleName None flatRules
  = Throw TypeError.
Proof. reflexivity. Qed.

(** C8, as stated, fails: with an absent catalog and an analysis that has
    neither contribution variables nor the employee aggregate, the error
    comes from amount resolution, not from the catalog guard. *)
Lemma missing_catalog_not_fail_fast :
  analysisToFicheDePaie chercher encoder (Some analyse_vide) None
  = Throw (RuleNotFoundInAnalysis "contrat salarié . cotisations salariales")
  /\ ~ (forall analysis : option Analysis,
          analysisToFicheDePaie chercher encoder analysis None
          = Throw MissingRuleCatalog).
Proof.
  split; [reflexivity|].
  intros H. specialize (H (Some analyse_vide)). discriminate H.
Qed.

(** C8, amended: with an absent catalog, assembly of a present analysis
    always fails and returns no payslip.  The catalog guard sits in the
    localisation of a single rule, so the error is the missing-catalog
    one as soon as a rule has to be localised, that is when the analysis
    has a contribution variable or has the employee aggregate in its
    cache or targets; otherwise amount resolution fails first, on the
    employee aggregate. *)
Theorem missing_catalog_error (FlatRules : Type)
    (findRuleByDottedName : FlatRules -> string -> option LocalizedRule)
    (encodeRuleName : string -> string) (a : Analysis) :
  analysisToFicheDePaie findRuleByDottedName encodeRuleName (Some a) None
  = Throw match variables a, find_rule a NOM_COTISATIONS_SALARIALES with
          | [], None => RuleNotFoundInAnalysis NOM_COTISATIONS_SALARIALES
          | _, _ => MissingRuleCatalog
          end.
Proof.
  unfold analysisToFicheDePaie. cbn [analysisToCotisations].
  destruct (variables a) as [|v vs].
  - rewrite mergedCotisations_nil. cbn [bind].
    unfold règleAvecMontantSelector at 1.
    destruct (find_rule a NOM_COTISATIONS_SALARIALES); reflexivity.
  - rewrite (mergedCotisations_Throw _ MissingRuleCatalog) by reflexivity.
    reflexivity.
Qed.

(** * Further properties of the selectors *)



Lemma premières_occurrences_In (ks : list string) (k : string) :
  In k (premières_occurrences ks) <-> In k ks.
Proof.
  induction ks as [|a ks IH]; [reflexivity|]. cbn. rewrite filter_In, IH.
  destruct (String.eqb_spec k a) as [->|Hne]; cbn; intuition congruence.
Qed.

Lemma premières_occurrences_NoDup (ks : list string) :
  List.NoDup (premières_occurrences ks).
Proof.
  induction ks as [|a ks IH]; cbn; constructor.
  - rewrite filter_In, String.eqb_refl. cbn. intros [_ H]. discriminate H.
  - apply List.NoDup_filter, IH.
Qed.

Lemma premières_occurrences_snoc (ks : list string) (k : string) :
  premières_occurrences (ks ++ [k])
  = if existsb (String.eqb k) ks then premières_occurrences ks
    else premières_occurrences ks ++ [k].
Proof.
  induction ks as [|a ks IH]; [reflexivity|]. cbn. rewrite IH.
  destruct (String.eqb_spec k a) as [->|Hne]; cbn.
  - destruct (existsb (String.eqb a) ks); [reflexivity|].
    rewrite List.filter_app. cbn. rewrite String.eqb_refl. cbn.
    rewrite app_nil_r. reflexivity.
  - destruct (existsb (String.eqb k) ks); [reflexivity|].
    rewrite List.filter_app. cbn.
    destruct (String.eqb_spec k a); [congruence|]. reflexivity.
Qed.

Lemma groupBy_snoc {A} (f : A -> string) (l : list A) (x : A) :
  groupBy f (l ++ [x]) = groupBy_add (f x) x (groupBy f l).
Proof. unfold groupBy. rewrite fold_left_app. reflexivity. Qed.

Lemma groupBy_add_map {A} (k : string) (x : A) (g : string -> list A)
    (ks : list string) :
  List.NoDup ks ->
  groupBy_add k x (map (fun k' => (k', g k')) ks)
  = if existsb (String.eqb k) ks
    then map (fun k' => (k', if String.eqb k k' then g k' ++ [x] else g k')) ks
    else map (fun k' => (k', g k')) ks ++ [(k, [x])].
Proof.
  induction ks as [|a ks IH]; intros Hnd; [reflexivity|].
  inversion Hnd as [|? ? Ha Hks]; subst. cbn.
  destruct (String.eqb_spec k a) as [->|Hne]; cbn.
  - f_equal. apply map_ext_in. intros k' Hk'.
    destruct (String.eqb_spec a k') as [->|]; [contradiction | reflexivity].
  - rewrite (IH Hks). destruct (existsb (String.eqb k) ks); reflexivity.
Qed.

Lemma existsb_eqb_In (k : string) (ks : list string) :
  existsb (String.eqb k) ks = true <-> In k ks.
Proof.
  rewrite existsb_exists. split.
  - intros (k' & Hin & Heq). apply String.eqb_eq in Heq. subst. exact Hin.
  - intros H. exists k. split; [exact H | apply String.eqb_refl].
Qed.

Lemma filter_nil_notin {A} (f : A -> string) (k : string) (l : list A) :
  ~ In k (map f l) -> List.filter (fun x => String.eqb (f x) k) l = [].
Proof.
  induction l as [|x l IH]; [reflexivity|]. cbn. intros H.
  destruct (String.eqb_spec (f x) k) as [Heq|Hne]; [tauto|]. apply IH. tauto.
Qed.

Lemma groupBy_groupes {A} (f : A -> string) (l : list A) :
  groupBy f l = groupes f l.
Proof.
  induction l as [|x l IH] using rev_ind; [reflexivity|].
  rewrite groupBy_snoc, IH. unfold groupes.
  rewrite (groupBy_add_map (f x) x
             (fun k => List.filter (fun y => String.eqb (f y) k) l)
             _ (premières_occurrences_NoDup _)).
  rewrite map_app. cbn [map]. rewrite premières_occurrences_snoc.
  destruct (existsb (String.eqb (f x)) (map f l)) eqn:E.
  - assert (E' : existsb (String.eqb (f x)) (premières_occurrences (map f l)) = true).
    { apply existsb_eqb_In, premières_occurrences_In.
      apply (proj1 (existsb_eqb_In _ _)), E. }
    rewrite E'. apply map_ext. intros k. rewrite List.filter_app. cbn.
    destruct (String.eqb (f x) k); [reflexivity | rewrite app_nil_r; reflexivity].
  - assert (Hnot : ~ In (f x) (map f l)).
    { intros H. apply existsb_eqb_In in H. congruence. }
    assert (E' : existsb (String.eqb (f x)) (premières_occurrences (map f l)) = false).
    { destruct (existsb _ (premières_occurrences _)) eqn:E2; [|reflexivity].
      apply (proj1 (existsb_eqb_In _ _)) in E2.
      apply (proj1 (premières_occurrences_In _ _)) in E2. contradiction. }
    rewrite E'. rewrite map_app. cbn [map]. f_equal.
    + apply map_ext_in. intros k Hk. rewrite List.filter_app. cbn.
      destruct (String.eqb_spec (f x) k) as [<-|];
        [apply (proj1 (premières_occurrences_In _ _)) in Hk; contradiction|].
      rewrite app_nil_r. reflexivity.
    + rewrite List.filter_app. cbn. rewrite String.eqb_refl.
      rewrite (filter_nil_notin f (f x) l Hnot). reflexivity.
Qed.

Section Partition.

Context {A K : Type}.
Variable eqb : K -> K -> bool.
Hypothesis eqb_eq : forall x y, eqb x y = true <-> x = y.
Variable f : A -> K.

Lemma filter_complement_perm (p : A -> bool) (l : list A) :
  Permutation (List.filter p l ++ List.filter (fun x => negb (p x)) l) l.
Proof.
  induction l as [|x l IH]; cbn; [constructor|].
  destruct (p x); cbn.
  - constructor. exact IH.
  - symmetry. apply Permutation_cons_app. symmetry. exact IH.
Qed.

Lemma filter_filter_sub (p q : A -> bool) (l : list A) :
  (forall x, q x = true -> p x = true) ->
  List.filter q (List.filter p l) = List.filter q l.
Proof.
  intros H. induction l as [|x l IH]; [reflexivity|]. cbn.
  destruct (p x) eqn:Ep; cbn.
  - rewrite IH. reflexivity.
  - destruct (q x) eqn:Eq; [|exact IH]. rewrite (H x Eq) in Ep. discriminate Ep.
Qed.

Lemma partition_perm (ks : list K) (l : list A) :
  List.NoDup ks -> (forall x, In x l -> In (f x) ks) ->
  Permutation (concat (map (fun k => List.filter (fun x => eqb (f x) k) l) ks)) l.
Proof.
  revert l. induction ks as [|k ks IH]; intros l Hnd Hin.
  - destruct l as [|x l]; [constructor|]. destruct (Hin x (or_introl eq_refl)).
  - inversion Hnd as [|? ? Hk Hks]; subst. cbn [map concat].
    rewrite (map_ext_in _
               (fun k' => List.filter (fun x => eqb (f x) k')
                            (List.filter (fun x => negb (eqb (f x) k)) l))).
    + rewrite (IH _ Hks).
      * apply filter_complement_perm.
      * intros x Hx. apply filter_In in Hx. destruct Hx as [Hx Hne].
        destruct (Hin x Hx) as [Heq|H]; [|exact H].
        subst k. rewrite (proj2 (eqb_eq _ _) eq_refl) in Hne. discriminate Hne.
    + intros k' Hk'. symmetry. apply filter_filter_sub. intros x Hx.
      apply eqb_eq in Hx. subst k'.
      destruct (eqb (f x) k) eqn:E; [|reflexivity].
      apply eqb_eq in E. subst k. contradiction.
Qed.

End Partition.

Lemma mapR_map {A B C} (f : B -> Result C) (g : A -> B) (l : list A) :
  mapR f (map g l) = mapR (fun x => f (g x)) l.
Proof.
  induction l as [|x l IH]; [reflexivity|]. cbn. rewrite IH. reflexivity.
Qed.

Lemma mapR_Ok_map {A B} (f : A -> Result B) (g : A -> B) (l : list A) :
  (forall x, In x l -> f x = Ok (g x)) -> mapR f l = Ok (map g l).
Proof.
  induction l as [|x l IH]; intros H; [reflexivity|]. cbn.
  rewrite (H x (or_introl eq_refl)), IH; [reflexivity|].
  intros y Hy. apply H. right; exact Hy.
Qed.

Lemma mapR_Ok_all {A B} (f : A -> Result B) (l : list A) (l' : list B) :
  mapR f l = Ok l' -> forall x, In x l -> exists y, f x = Ok y.
Proof.
  revert l'. induction l as [|a l IH]; intros l' H x Hx; [destruct Hx|].
  cbn in H. inv_bind H. inv_bind H. destruct Hx as [<-|Hx]; eauto.
Qed.

Lemma mapR_Throw {A B} (f : A -> Result B) (l : list A) (e : Erreur) :
  mapR f l = Throw e -> exists x, In x l /\ f x = Throw e.
Proof.
  induction l as [|a l IH]; intros H; [discriminate H|]. cbn in H.
  destruct (f a) as [y|e'] eqn:Ea.
  - cbn in H. destruct (mapR f l) as [ys|e''] eqn:El; [discriminate H|].
    cbn in H. injection H as ->. destruct (IH eq_refl) as (x & Hx & Hf).
    exists x. split; [right; exact Hx | exact Hf].
  - cbn in H. injection H as ->. exists a. split; [left; reflexivity | exact Ea].
Qed.

Lemma de_nom_In (dn : string) (vs : list VariableWithCotisation)
    (v : VariableWithCotisation) :
  In v (de_nom dn vs) <-> In v vs /\ dottedName v = dn.
Proof. unfold de_nom. rewrite filter_In, String.eqb_eq. reflexivity. Qed.

Lemma mapR_ext {A B} (f g : A -> Result B) (l : list A) :
  (forall x, In x l -> f x = g x) -> mapR f l = mapR g l.
Proof.
  induction l as [|x l IH]; intros H; [reflexivity|]. cbn.
  rewrite (H x (or_introl eq_refl)), IH; [reflexivity|].
  intros y Hy. apply H. right; exact Hy.
Qed.

Lemma mergedCotisations_groupes (sel : string -> Result Règle)
    (vs : list VariableWithCotisation) :
  mergedCotisations sel vs
  = mapR (fun dn =>
            let* l := mapR (variableToCotisation sel) (de_nom dn vs) in
            Ok (fusion l))
         (premières_occurrences (map dottedName vs)).
Proof.
  unfold mergedCotisations. rewrite groupBy_groupes. unfold values, groupes.
  rewrite map_map. cbn [snd]. rewrite mapR_map. apply mapR_ext.
  intros dn _. fold (de_nom dn vs).
  destruct (mapR (variableToCotisation sel) (de_nom dn vs)) as [l|e];
    [|reflexivity].
  cbn [bind]. rewrite fold_mergeCotisations_fusion. reflexivity.
Qed.

Lemma mergedCotisations_by_name (sel : string -> Result Règle)
    (r : string -> Règle) (vs : list VariableWithCotisation) :
  (forall v, In v vs -> sel (dottedName v) = Ok (r (dottedName v))) ->
  mergedCotisations sel vs
  = Ok (map (fun dn => fusion (map (normalisée (r dn)) (de_nom dn vs)))
            (premières_occurrences (map dottedName vs))).
Proof.
  intros H. rewrite mergedCotisations_groupes. apply mapR_Ok_map.
  intros dn _.
  rewrite (mapR_Ok_map _ (normalisée (r dn))); [reflexivity|].
  intros v Hv. apply de_nom_In in Hv. destruct Hv as [Hv <-].
  apply variableToCotisation_Ok, H, Hv.
Qed.

Lemma règle_ou_blanc_Ok (sel : string -> Result Règle) (dn : string) :
  (exists r, sel dn = Ok r) -> sel dn = Ok (règle_ou_blanc sel dn).
Proof. intros [r H]. unfold règle_ou_blanc. rewrite H. reflexivity. Qed.

Lemma mergedCotisations_Ok_all (sel : string -> Result Règle)
    (vs : list VariableWithCotisation) (cs : list Cotisation) :
  mergedCotisations sel vs = Ok cs ->
  forall v, In v vs -> exists r, sel (dottedName v) = Ok r.
Proof.
  rewrite mergedCotisations_groupes. intros H v Hv.
  assert (Hdn : In (dottedName v) (premières_occurrences (map dottedName vs))).
  { apply premières_occurrences_In, in_map, Hv. }
  destruct (mapR_Ok_all _ _ _ H _ Hdn) as (c & Hc). inv_bind Hc.
  assert (Hv' : In v (de_nom (dottedName v) vs)) by (apply de_nom_In; auto).
  destruct (mapR_Ok_all _ _ _ Hx _ Hv') as (c' & Hc').
  apply variableToCotisation_inv in Hc'. destruct Hc' as (r0 & Hr & _). eauto.
Qed.

Lemma mergedCotisations_Throw_some (sel : string -> Result Règle)
    (vs : list VariableWithCotisation) (e : Erreur) :
  mergedCotisations sel vs = Throw e ->
  exists v, In v vs /\ sel (dottedName v) = Throw e.
Proof.
  rewrite mergedCotisations_groupes. intros H.
  apply mapR_Throw in H. destruct H as (dn & _ & H).
  destruct (mapR (variableToCotisation sel) (de_nom dn vs)) as [l|e'] eqn:E;
    [discriminate H|].
  cbn in H. injection H as ->. apply mapR_Throw in E.
  destruct E as (v & Hv & Hf). apply de_nom_In in Hv. destruct Hv as [Hv _].
  exists v. split; [exact Hv|]. unfold variableToCotisation in Hf.
  destruct (sel (dottedName v)) as [r0|e0]; [discriminate Hf|].
  cbn in Hf. injection Hf as ->. reflexivity.
Qed.

Lemma analysisToCotisations_Ok_iff (a : Analysis) (sel : string -> Result Règle) :
  (exists cots, analysisToCotisations (Some a) sel = Ok cots)
  <-> forall v, In v (variables a) -> exists r, sel (dottedName v) = Ok r.
Proof.
  cbn [analysisToCotisations]. split.
  - intros [cots H]. inv_bind H. exact (mergedCotisations_Ok_all _ _ _ Hx).
  - intros H.
    rewrite (mergedCotisations_by_name sel (règle_ou_blanc sel)).
    + cbn [bind]. eauto.
    + intros v Hv. apply règle_ou_blanc_Ok, H, Hv.
Qed.

Lemma analysisToCotisations_Throw_some (a : Analysis)
    (sel : string -> Result Règle) (e : Erreur) :
  analysisToCotisations (Some a) sel = Throw e ->
  exists v, In v (variables a) /\ sel (dottedName v) = Throw e.
Proof.
  cbn [analysisToCotisations]. intros H.
  destruct (mergedCotisations sel (variables a)) as [cs|e'] eqn:E;
    [discriminate H|].
  cbn in H. injection H as ->. exact (mergedCotisations_Throw_some _ _ _ E).
Qed.

(** X2: building the contributions of a present analysis succeeds exactly
    when the rule of every raw variable can be localised; when it fails,
    the error is the one localisation raised for one of the variables.
    Grouping and filtering never fail. *)
Theorem analysisToCotisations_success (a : Analysis) (sel : string -> Result Règle) :
  ((exists cots, analysisToCotisations (Some a) sel = Ok cots)
   <-> forall v, In v (variables a) -> exists r, sel (dottedName v) = Ok r)
  /\ (forall e, analysisToCotisations (Some a) sel = Throw e ->
                exists v, In v (variables a) /\ sel (dottedName v) = Throw e).
Proof.
  split.
  - apply analysisToCotisations_Ok_iff.
  - intros e. apply analysisToCotisations_Throw_some.
Qed.

Lemma groupByBranche_contents (l : list Cotisation) :
  map (fun entrée => default [] (snd entrée)) (groupByBranche l)
  = map (fun b => rev (de_branche b l)) COTISATION_BRANCHE_ORDER.
Proof.
  unfold groupByBranche. rewrite map_map. apply map_ext. intros b. cbn [snd].
  rewrite cotisationsMap_lookup, lookup_empty.
  destruct (de_branche b l); [reflexivity|]. cbn [default].
  rewrite app_nil_r. reflexivity.
Qed.

Lemma concat_map_rev_perm {A B} (F : B -> list A) (bs : list B) :
  Permutation (concat (map (fun b => rev (F b)) bs)) (concat (map F bs)).
Proof.
  induction bs as [|b bs IH]; [constructor|]. cbn [map concat].
  apply Permutation_app; [symmetry; apply Permutation_rev | exact IH].
Qed.

Lemma COTISATION_BRANCHE_ORDER_NoDup : List.NoDup COTISATION_BRANCHE_ORDER.
Proof.
  unfold COTISATION_BRANCHE_ORDER.
  repeat (constructor; [cbn; intuition discriminate|]). constructor.
Qed.

Lemma COTISATION_BRANCHE_ORDER_complete (b : Branche) :
  In b COTISATION_BRANCHE_ORDER.
Proof. destruct b; cbn; tauto. Qed.

Lemma contenu_groupByBranche (l : list Cotisation) :
  Permutation (contenu (groupByBranche l)) l.
Proof.
  unfold contenu. rewrite groupByBranche_contents, concat_map_rev_perm.
  pose (eqb := fun x y : Branche => bool_decide (x = y)).
  assert (eqb_eq : forall x y, eqb x y = true <-> x = y)
    by (intros x y; apply bool_decide_eq_true).
  apply (partition_perm eqb eqb_eq branche).
  - apply COTISATION_BRANCHE_ORDER_NoDup.
  - intros c _. apply COTISATION_BRANCHE_ORDER_complete.
Qed.

Lemma groupByBranche_bucket (l : list Cotisation) (b : Branche)
    (cs : list Cotisation) :
  In (b, Some cs) (groupByBranche l) -> cs = rev (de_branche b l) /\ cs <> [].
Proof.
  unfold groupByBranche. intros H. apply in_map_iff in H.
  destruct H as (b' & Heq & _). injection Heq as -> Heq.
  rewrite cotisationsMap_lookup, lookup_empty in Heq.
  destruct (de_branche b l) as [|c' l'] eqn:E; [discriminate Heq|].
  cbn [default] in Heq. rewrite app_nil_r in Heq. injection Heq as <-.
  split; [reflexivity|]. intros H. cbn [rev] in H.
  apply app_eq_nil in H. destruct H as [_ H]. discriminate H.
Qed.

(** X3: [groupByBranche] loses and duplicates nothing: its buckets together
    are a permutation of the input, a bucket only holds contributions of
    its own branch, every contribution sits in the bucket of its branch,
    and no bucket is an empty list. *)
Theorem groupByBranche_partition (l : list Cotisation) :
  Permutation (contenu (groupByBranche l)) l
  /\ (forall b cs c,
        In (b, Some cs) (groupByBranche l) -> In c cs -> branche c = b)
  /\ (forall c,
        In c l ->
        exists cs, In (branche c, Some cs) (groupByBranche l) /\ In c cs)
  /\ (forall b, ~ In (b, Some []) (groupByBranche l)).
Proof.
  split; [|split; [|split]].
  - apply contenu_groupByBranche.
  - intros b cs c Hb Hc. apply groupByBranche_bucket in Hb.
    destruct Hb as [-> _]. rewrite <- in_rev in Hc.
    apply filter_In in Hc. destruct Hc as [_ Hc].
    apply bool_decide_eq_true in Hc. exact Hc.
  - intros c Hc. exists (rev (de_branche (branche c) l)).
    assert (Hin : In c (de_branche (branche c) l)).
    { apply filter_In. split; [exact Hc | apply bool_decide_eq_true; reflexivity]. }
    split; [|rewrite <- in_rev; exact Hin].
    unfold groupByBranche. apply in_map_iff. exists (branche c).
    split; [|apply COTISATION_BRANCHE_ORDER_complete].
    rewrite cotisationsMap_lookup, lookup_empty.
    destruct (de_branche (branche c) l); [destruct Hin|].
    cbn [default]. rewrite app_nil_r. reflexivity.
  - intros b H. apply groupByBranche_bucket in H. destruct H as [_ H].
    apply H. reflexivity.
Qed.

(** X1: when every variable's rule is localised, the payslip holds one
    contribution per distinct dotted name whose merged amounts are not
    both zero, and nothing else: the buckets together are a permutation of
    the non-zero merges, each merge being the fold of the normalized
    variables of that name in extraction order. *)
Theorem analysisToCotisations_by_name (a : Analysis)
    (sel : string -> Result Règle) (r : string -> Règle) :
  (forall v, In v (variables a) -> sel (dottedName v) = Ok (r (dottedName v))) ->
  exists cots,
    analysisToCotisations (Some a) sel = Ok cots
    /\ Permutation (contenu cots)
         (List.filter non_nulle
            (map (fun dn => fusion (map (normalisée (r dn)) (de_nom dn (variables a))))
                 (premières_occurrences (map dottedName (variables a))))).
Proof.
  intros H. cbn [analysisToCotisations].
  rewrite (mergedCotisations_by_name sel r _ H). cbn [bind].
  eexists. split; [reflexivity|]. apply contenu_groupByBranche.
Qed.











Lemma bind_Throw {A B} (r : Result A) (k : A -> Result B) (e : Erreur) :
  bind r k = Throw e -> r = Throw e \/ exists x, r = Ok x /\ k x = Throw e.
Proof.
  destruct r as [x|e']; cbn; intros H.
  - right. exists x. split; [reflexivity | exact H].
  - left. injection H as ->. reflexivity.
Qed.

Section Fiche.

Variable FlatRules : Type.
Variable findRuleByDottedName : FlatRules -> string -> option LocalizedRule.
Variable encodeRuleName : string -> string.

Let localiser := règleLocaliséeSelector findRuleByDottedName encodeRuleName.
Let assembler := analysisToFicheDePaie findRuleByDottedName encodeRuleName.

Lemma localiser_Throw (flatRules : option FlatRules) (dn : string) (e : Erreur) :
  localiser flatRules dn = Throw e ->
  (e = MissingRuleCatalog /\ flatRules = None)
  \/ (e = TypeError
      /\ exists fr, flatRules = Some fr /\ findRuleByDottedName fr dn = None).
Proof.
  unfold localiser, règleLocaliséeSelector. destruct flatRules as [fr|].
  - destruct (findRuleByDottedName fr dn) eqn:E; [discriminate|].
    intros [= <-]. right. eauto.
  - intros [= <-]. left. auto.
Qed.

Lemma localiser_Ok_iff (fr : FlatRules) (dn : string) :
  (exists r, localiser (Some fr) dn = Ok r) <-> findRuleByDottedName fr dn <> None.
Proof.
  unfold localiser, règleLocaliséeSelector.
  destruct (findRuleByDottedName fr dn) as [rule|]; split.
  - discriminate.
  - eauto.
  - intros [r H]. discriminate H.
  - congruence.
Qed.

Lemma règleAvecMontantSelector_Throw (a : Analysis)
    (flatRules : option FlatRules) (dn : string) (e : Erreur) :
  règleAvecMontantSelector (Some a) (localiser flatRules) dn = Throw e ->
  (e = RuleNotFoundInAnalysis dn /\ find_rule a dn = None)
  \/ (e = MissingRuleCatalog /\ flatRules = None)
  \/ (e = TypeError
      /\ exists fr, flatRules = Some fr /\ findRuleByDottedName fr dn = None).
Proof.
  unfold règleAvecMontantSelector.
  destruct (find_rule a dn) as [node|]; [|intros [= <-]; left; auto].
  intros H. apply bind_Throw in H. destruct H as [H | (x & _ & H)];
    [|discriminate H].
  right. apply localiser_Throw, H.
Qed.

Lemma règleAvecMontantSelector_Ok (analysis : option Analysis)
    (sel : string -> Result Règle) (dn : string) (x : RègleAvecMontant) :
  règleAvecMontantSelector analysis sel dn = Ok x ->
  exists a,
    analysis = Some a
    /\ find_rule a dn <> None
    /\ sel dn = Ok (rm_règle x)
    /\ rm_montant x = montant_de a dn.
Proof.
  unfold règleAvecMontantSelector, montant_de.
  destruct analysis as [a|]; [|discriminate].
  destruct (find_rule a dn) as [node|] eqn:E; [|discriminate].
  intros H. inv_bind H. injection H as <-. exists a. rewrite E.
  cbn [rm_règle rm_montant path]. rewrite montant_falsy.
  split; [reflexivity | split; [discriminate | split; [exact Hx | reflexivity]]].
Qed.

Lemma règleAvecMontantSelector_Ok_iff (a : Analysis) (fr : FlatRules) (dn : string) :
  (exists x, règleAvecMontantSelector (Some a) (localiser (Some fr)) dn = Ok x)
  <-> find_rule a dn <> None /\ findRuleByDottedName fr dn <> None.
Proof.
  split.
  - intros [x H]. apply règleAvecMontantSelector_Ok in H.
    destruct H as (a' & [= <-] & Hf & Hs & _). split; [exact Hf|].
    apply localiser_Ok_iff. eauto.
  - intros [Hf Hr]. apply localiser_Ok_iff in Hr. destruct Hr as [r Hr].
    unfold règleAvecMontantSelector.
    destruct (find_rule a dn) as [node|]; [|congruence].
    rewrite Hr. cbn [bind]. eauto.
Qed.

(** X5: the only errors [analysisToFicheDePaie] can throw are the
    [TypeError], the missing-catalog error (only when the catalog is
    absent) and the rule-not-found-in-analysis error for one of the ten
    names it resolves, absent from the analysis.  It never throws the
    rule-not-found error of the catalog nor the missing-analysis error. *)
Theorem analysisToFicheDePaie_errors (analysis : option Analysis)
    (flatRules : option FlatRules) (e : Erreur) :
  assembler analysis flatRules = Throw e ->
  e = TypeError
  \/ (e = MissingRuleCatalog /\ flatRules = None)
  \/ (exists a dn,
        analysis = Some a /\ In dn NOMS_DE_LA_FICHE
        /\ find_rule a dn = None /\ e = RuleNotFoundInAnalysis dn).
Proof.
  unfold assembler, analysisToFicheDePaie. intros H.
  destruct analysis as [a|]; [|cbn in H; injection H as <-; left; reflexivity].
  apply bind_Throw in H. destruct H as [H | (cots & _ & H)].
  { apply analysisToCotisations_Throw_some in H. destruct H as (v & _ & H).
    apply localiser_Throw in H. destruct H as [[-> ->] | [-> _]]; auto. }
  repeat
    (cbv zeta in H; apply bind_Throw in H; destruct H as [H | (? & _ & H)];
     [ apply règleAvecMontantSelector_Throw in H;
       destruct H as [[-> Hnone] | [[-> ->] | [-> _]]];
       [ right; right;
         refine (ex_intro _ a (ex_intro _ _
                   (conj eq_refl (conj _ (conj Hnone eq_refl)))));
         cbn; tauto
       | auto | auto ]
     | ]).
  discriminate H.
Qed.

(** X6: with a present analysis and a present catalog, assembly succeeds
    exactly when the catalog knows the rule of every raw variable, and
    each of the ten resolved names is in the analysis (cache or targets)
    and in the catalog. *)
Theorem analysisToFicheDePaie_success (a : Analysis) (fr : FlatRules) :
  (exists fiche, assembler (Some a) (Some fr) = Ok fiche)
  <-> (forall v, In v (variables a) ->
                 findRuleByDottedName fr (dottedName v) <> None)
      /\ (forall dn, In dn NOMS_DE_LA_FICHE ->
                     find_rule a dn <> None
                     /\ findRuleByDottedName fr dn <> None).
Proof.
  unfold assembler, analysisToFicheDePaie. split.
  - intros [fiche H]. inv_bind H. split.
    + intros v Hv. apply localiser_Ok_iff.
      apply (proj1 (analysisToCotisations_Ok_iff a _)); eauto.
    + do 10 (cbv zeta in H; inv_bind H).
      intros dn Hdn. apply règleAvecMontantSelector_Ok_iff.
      cbn in Hdn.
      repeat (destruct Hdn as [<-|Hdn]; [eauto|]). destruct Hdn.
  - intros [Hv Hn].
    assert (Hc : exists cots,
               analysisToCotisations (Some a) (localiser (Some fr)) = Ok cots).
    { apply analysisToCotisations_Ok_iff. intros v Hin.
      apply localiser_Ok_iff, Hv, Hin. }
    destruct Hc as [cots Hc]. unfold localiser in Hc. rewrite Hc. cbn [bind].
    repeat
      (cbv zeta;
       match goal with
       | |- exists _, bind (règleAvecMontantSelector _ _ ?dn) _ = _ =>
           let x := fresh "x" in
           let Hx := fresh "Hx" in
           destruct (proj2 (règleAvecMontantSelector_Ok_iff a fr dn)
                       (Hn dn ltac:(cbn; tauto))) as [x Hx];
           unfold localiser in Hx; rewrite Hx; cbn [bind]
       end).
    eauto.
Qed.

(** X7: in an assembled payslip every single-amount field carries the
    localised rule of its own dotted name and the value of the node found
    for that name in the analysis, 0 when the node has no value. *)
Theorem analysisToFicheDePaie_fields (a : Analysis)
    (flatRules : option FlatRules) (fiche : FicheDePaie) :
  assembler (Some a) flatRules = Ok fiche ->
  Forall (fun champ : (FicheDePaie -> RègleAvecMontant) * string =>
            localiser flatRules (snd champ) = Ok (rm_règle (fst champ fiche))
            /\ rm_montant (fst champ fiche) = montant_de a (snd champ))
         CHAMPS_DE_LA_FICHE.
Proof.
  unfold assembler, analysisToFicheDePaie. intros H.
  inv_bind H. do 10 (cbv zeta in H; inv_bind H). injection H as <-.
  repeat
    match goal with
    | Hr : règleAvecMontantSelector _ _ _ = Ok _ |- _ =>
        apply règleAvecMontantSelector_Ok in Hr;
        destruct Hr as (? & [= <-] & _ & ? & ?)
    end.
  unfold CHAMPS_DE_LA_FICHE. repeat constructor; assumption.
Qed.

End Fiche.










Lemma variables_app (a : Analysis) :
  variables a
  = pathOr_variables (cache a !! NOM_COTISATIONS_SALARIALES)
    ++ pathOr_variables (cache a !! NOM_COTISATIONS_PATRONALES).
Proof. reflexivity. Qed.

(** X11: the raw variables are read from [analysis.cache] only.  When
    the cache has neither aggregate, or they lack the explanation path,
    every bucket is [undefined] and no rule is localised, whatever
    [analysis.targets] holds. *)
Theorem analysisToCotisations_extraction (a : Analysis)
    (sel : string -> Result Règle) :
  path (cache a !! NOM_COTISATIONS_SALARIALES) node_variables = None ->
  path (cache a !! NOM_COTISATIONS_PATRONALES) node_variables = None ->
  analysisToCotisations (Some a) sel
  = Ok (map (fun b => (b, None)) COTISATION_BRANCHE_ORDER).
Proof.
  intros HS HP. cbn [analysisToCotisations].
  rewrite variables_app. unfold pathOr_variables. rewrite HS, HP. reflexivity.
Qed.

(** X12: the outcome of [règleLocaliséeSelector] is decided by the catalog
    alone: the missing-catalog error exactly when the catalog is absent, a
    [TypeError] exactly when it is present and does not know the name, a
    rule otherwise, whose link is ['/règle/'] followed by the encoded
    name.  The rule-not-found error is never thrown. *)
Theorem localized_rule_outcomes (FlatRules : Type)
    (findRuleByDottedName : FlatRules -> string -> option LocalizedRule)
    (encodeRuleName : string -> string)
    (flatRules : option FlatRules) (dn : string) :
  let résultat :=
    règleLocaliséeSelector findRuleByDottedName encodeRuleName flatRules dn in
  (résultat = Throw MissingRuleCatalog <-> flatRules = None)
  /\ (résultat = Throw TypeError
      <-> exists fr, flatRules = Some fr /\ findRuleByDottedName fr dn = None)
  /\ ((exists r, résultat = Ok r /\ lien r = String.append "/règle/" (encodeRuleName dn))
      <-> exists fr, flatRules = Some fr /\ findRuleByDottedName fr dn <> None)
  /\ (forall dn', résultat <> Throw (RuleNotFound dn')).
Proof.
  cbv zeta. unfold règleLocaliséeSelector.
  destruct flatRules as [fr|]; [destruct (findRuleByDottedName fr dn) as [rule|] eqn:E|].
  - split; [|split; [|split]].
    + split; discriminate.
    + split; [discriminate|]. intros (fr' & [= <-] & H). congruence.
    + split; [|eauto]. intros _. exists fr. split; [reflexivity | congruence].
    + discriminate.
  - split; [|split; [|split]].
    + split; discriminate.
    + split; [|reflexivity]. intros _. eauto.
    + split; [intros (r & H & _); discriminate H|].
      intros (fr' & [= <-] & H). congruence.
    + discriminate.
  - split; [|split; [|split]].
    + split; reflexivity.
    + split; [discriminate|]. intros (fr' & H & _). discriminate H.
    + split; [intros (r & H & _); discriminate H|].
      intros (fr' & H & _). discriminate H.
    + discriminate.
Qed.

(** ** The further properties on the sample data *)

Lemma variables_analyse_exemple :
  variables analyse_exemple = [retraite_salarié; retraite_employeur].
Proof. vm_compute. reflexivity. Qed.

Lemma analysisToCotisations_by_name_witness :
  let sel := règleLocaliséeSelector chercher encoder (Some catalogue_exemple) in
  (forall v, In v (variables analyse_exemple) ->
             sel (dottedName v) = Ok (règle_ou_blanc sel (dottedName v)))
  /\ exists cots,
       analysisToCotisations (Some analyse_exemple) sel = Ok cots
       /\ Permutation (contenu cots)
            (List.filter non_nulle
               (map (fun dn => fusion (map (normalisée (règle_ou_blanc sel dn))
                                         (de_nom dn (variables analyse_exemple))))
                    (premières_occurrences
                       (map dottedName (variables analyse_exemple))))).
Proof.
  intros sel.
  assert (H : forall v, In v (variables analyse_exemple) ->
                        sel (dottedName v) = Ok (règle_ou_blanc sel (dottedName v))).
  { intros v Hv. rewrite variables_analyse_exemple in Hv.
    destruct Hv as [<-|[<-|[]]]; reflexivity. }
  split; [exact H|].
  exact (analysisToCotisations_by_name analyse_exemple sel _ H).
Defined.


Lemma analysisToFicheDePaie_errors_witness :
  analysisToFicheDePaie chercher encoder (Some analyse_vide) None
  = Throw (RuleNotFoundInAnalysis NOM_COTISATIONS_SALARIALES)
  /\ (RuleNotFoundInAnalysis NOM_COTISATIONS_SALARIALES = TypeError
      \/ (RuleNotFoundInAnalysis NOM_COTISATIONS_SALARIALES = MissingRuleCatalog
          /\ @None Catalogue = None)
      \/ exists a dn,
           Some analyse_vide = Some a /\ In dn NOMS_DE_LA_FICHE
           /\ find_rule a dn = None
           /\ RuleNotFoundInAnalysis NOM_COTISATIONS_SALARIALES
              = RuleNotFoundInAnalysis dn).
Proof.
  assert (H : analysisToFicheDePaie chercher encoder (Some analyse_vide) None
              = Throw (RuleNotFoundInAnalysis NOM_COTISATIONS_SALARIALES))
    by reflexivity.
  split; [exact H|].
  exact (analysisToFicheDePaie_errors Catalogue chercher encoder _ _ _ H).
Defined.

Lemma analysisToFicheDePaie_fields_witness :
  exists fiche,
    analysisToFicheDePaie chercher encoder (Some analyse_exemple)
      (Some catalogue_exemple) = Ok fiche
    /\ Forall (fun champ : (FicheDePaie -> RègleAvecMontant) * string =>
                 règleLocaliséeSelector chercher encoder (Some catalogue_exemple)
                   (snd champ) = Ok (rm_règle (fst champ fiche))
                 /\ rm_montant (fst champ fiche)
                    = montant_de analyse_exemple (snd champ))
              CHAMPS_DE_LA_FICHE.
Proof.
  destruct (analysisToFicheDePaie chercher encoder (Some analyse_exemple)
              (Some catalogue_exemple)) as [fiche|e] eqn:E;
    [|vm_compute in E; discriminate E].
  exists fiche. split; [reflexivity|].
  exact (analysisToFicheDePaie_fields Catalogue chercher encoder _ _ fiche E).
Defined.




Lemma analysisToCotisations_extraction_witness :
  let sel := règleLocaliséeSelector chercher encoder (Some catalogue_exemple) in
  path (cache analyse_cibles !! NOM_COTISATIONS_SALARIALES) node_variables = None
  /\ path (cache analyse_cibles !! NOM_COTISATIONS_PATRONALES) node_variables = None
  /\ analysisToCotisations (Some analyse_cibles) sel
     = Ok (map (fun b => (b, None)) COTISATION_BRANCHE_ORDER).
Proof.
  intros sel.
  assert (HS : path (cache analyse_cibles !! NOM_COTISATIONS_SALARIALES)
                 node_variables = None) by reflexivity.
  assert (HP : path (cache analyse_cibles !! NOM_COTISATIONS_PATRONALES)
                 node_variables = None) by reflexivity.
  split; [exact HS | split; [exact HP|]].
  exact (analysisToCotisations_extraction analyse_cibles sel HS HP).
Defined.
